(** * tyvm: a shallow embedding of the LC-3 virtual machine of [src/tyvm.c]

    The development follows the C file top to bottom: the enumerations,
    the two global arrays, [sign_extend], [update_flags], and the body of
    [main] (argument handling, then the fetch/decode/execute loop, one
    definition per [case] of the [switch]).

    A [uint16_t] is a [Z] in [0, 2^16); every assignment to a [uint16_t]
    object is written with its truncation [u16].  An array is a list read
    with stdpp's lookup, so that an index outside the declared bounds is
    visible as [None]. *)

From Stdlib Require Import ZArith Lia.
From stdpp Require Import base option list strings.

Local Open Scope Z_scope.

(** ** Machine words *)

Definition UINT16_MAX : Z := 65535.

(** Conversion of an [int] result to [uint16_t]. *)
Definition u16 (x : Z) : Z := x mod 2 ^ 16.

Definition is_u16 (x : Z) : Prop := 0 <= x < 2 ^ 16.

(** ** Enumerations *)

Module Registers.
Definition RG_000 : Z := 0.
Definition RG_001 : Z := 1.
Definition RG_010 : Z := 2.
Definition RG_011 : Z := 3.
Definition RG_100 : Z := 4.
Definition RG_101 : Z := 5.
Definition RG_110 : Z := 6.
Definition RG_111 : Z := 7.
Definition RG_PC : Z := 8.
Definition RG_COND : Z := 9.
Definition RG_COUNT : Z := 10.
End Registers.
Export Registers.

Module Opcodes.
Definition OP_BR : Z := 0.
Definition OP_ADD : Z := 1.
Definition OP_LD : Z := 2.
Definition OP_ST : Z := 3.
Definition OP_JSR : Z := 4.
Definition OP_AND : Z := 5.
Definition OP_LDR : Z := 6.
Definition OP_STR : Z := 7.
Definition OP_RTI : Z := 8.
Definition OP_NOT : Z := 9.
Definition OP_LDI : Z := 10.
Definition OP_STI : Z := 11.
Definition OP_JMP : Z := 12.
Definition OP_RES : Z := 13.
Definition OP_LEA : Z := 14.
Definition OP_TRAP : Z := 15.
End Opcodes.
Export Opcodes.

Module Flags.
Definition FL_P : Z := 1.
Definition FL_Z : Z := Z.shiftl 1 1.
Definition FL_N : Z := Z.shiftl 1 2.
End Flags.
Export Flags.

Definition TRUE : Z := 1.
Definition FALSE : Z := 0.

(** ** [sign_extend]

    [if ((n >> (bit_count - 1)) & 1) n |= (0xFFFF << bit_count); return n;]
    The shift and the [|] are computed on [int]; the assignment back to the
    [uint16_t] parameter keeps the low 16 bits. *)

Definition sign_extend (n bit_count : Z) : Z :=
  if Z.land (Z.shiftr n (bit_count - 1)) 1 =? 0
  then n
  else u16 (Z.lor n (Z.shiftl 0xFFFF bit_count)).

(** ** The machine state

    [reg] and [memory] are the two global arrays.  [running] is the loop
    flag of [main].  [dr] is the block-scope variable of the [switch]:
    the cases of ADD, LD, AND, LDR, NOT, LDI and LEA assign it, the cases
    of ST, STR, STI and JMP read it without assigning it, so what they see
    is whatever the variable held before; it is kept in the state and every
    general statement below quantifies over its value. *)

Record State : Type := mkState {
  reg : list Z;
  memory : list Z;
  running : Z;
  dr : Z
}.

Definition set_reg_array (l : list Z) (s : State) : State :=
  mkState l (memory s) (running s) (dr s).

Definition set_dr (d : Z) (s : State) : State :=
  mkState (reg s) (memory s) (running s) d.

(** [reg[r]] as an rvalue; [None] when [r] is outside [reg[RG_COUNT]]. *)
Definition reg_get (r : Z) (s : State) : option Z :=
  reg s !! Z.to_nat r.

(** [reg[r] = v]; [None] when [r] is outside [reg[RG_COUNT]]. *)
Definition reg_set (r v : Z) (s : State) : option State :=
  match reg s !! Z.to_nat r with
  | Some _ => Some (set_reg_array (<[Z.to_nat r := v]> (reg s)) s)
  | None => None
  end.

(** Modelled from the spec: [mem_read] is called by [main] but defined in
    no source file.  Sections 2 and 3 of the specification describe Memory
    as an array of words read by a word address, so the call is the indexed
    read [memory[address]]; it is [None] when the index is outside the
    array declared in [src/tyvm.c].  An address being a word, the callers
    below truncate the [int] they compute with [u16] before the call.  The
    refresh of the keyboard registers that the specification mentions is
    an effect of the terminal and is not modelled. *)
Definition mem_read (address : Z) (s : State) : option Z :=
  memory s !! Z.to_nat address.

(** ** [update_flags] *)

Definition update_flags (r : Z) (s : State) : option State :=
  x ← reg_get r s;
  if x =? 0 then reg_set RG_COND FL_Z s
  else if negb (Z.shiftr x 15 =? 0) then reg_set RG_COND FL_N s
  else reg_set RG_COND FL_P s.

(** ** The cases of the [switch]

    Each definition takes the fetched instruction and the state in which
    [reg[RG_PC]] has already been incremented. *)

Definition case_OP_BR (instr : Z) (s : State) : option State :=
  let cond := Z.land (Z.shiftr instr 9) 0x7 in
  let PCoffset9 := sign_extend (Z.land instr 0x1FF) 9 in
  c ← reg_get RG_COND s;
  if Z.land cond c =? 0 then Some s
  else pc ← reg_get RG_PC s; reg_set RG_PC (u16 (pc + PCoffset9)) s.

Definition case_OP_ADD (instr : Z) (s : State) : option State :=
  let s := set_dr (Z.land (Z.shiftr instr 9) 0x7) s in
  let sr1 := Z.land (Z.shiftr instr 6) 0x7 in
  let imm_flag := Z.land (Z.shiftr instr 5) 0x1 in
  s ← (if imm_flag =? 0 then
         let sr2 := Z.land instr 0x7 in
         a ← reg_get sr1 s; reg_set (dr s) (u16 (a + sr2)) s
       else
         let imm5 := sign_extend (Z.land instr 0x1F) 5 in
         a ← reg_get sr1 s; reg_set (dr s) (u16 (a + imm5)) s);
  update_flags (dr s) s.

Definition case_OP_LD (instr : Z) (s : State) : option State :=
  let s := set_dr (Z.land (Z.shiftr instr 9) 0x7) s in
  let PCoffset9 := sign_extend (Z.land instr 0x1FF) 9 in
  pc ← reg_get RG_PC s;
  v ← mem_read (u16 (PCoffset9 + pc)) s;
  s ← reg_set (dr s) v s;
  update_flags (dr s) s.

Definition case_OP_ST (instr : Z) (s : State) : option State :=
  let sr := Z.land (Z.shiftr instr 6) 0x7 in
  let PCoffset9 := sign_extend (Z.land instr 0x1FF) 9 in
  pc ← reg_get RG_PC s;
  v ← mem_read (u16 (PCoffset9 + pc)) s;
  s ← reg_set sr v s;
  update_flags (dr s) s.

Definition case_OP_JSR (instr : Z) (s : State) : option State :=
  let PCoffset11 := sign_extend (Z.land instr 0x1FF) 11 in
  let jsr_flag := Z.land (Z.shiftr instr 11) 0x1 in
  let BaseR_jsrr := Z.land (Z.shiftr instr 6) 0x7 in
  if jsr_flag =? 0 then reg_set RG_PC BaseR_jsrr s
  else pc ← reg_get RG_PC s; reg_set RG_PC (u16 (pc + PCoffset11)) s.

Definition case_OP_AND (instr : Z) (s : State) : option State :=
  let s := set_dr (Z.land (Z.shiftr instr 9) 0x7) s in
  let sr1 := Z.land (Z.shiftr instr 6) 0x7 in
  let imm_flag := Z.land (Z.shiftr instr 5) 0x1 in
  s ← (if imm_flag =? 0 then
         let sr2 := Z.land instr 0x7 in
         a ← reg_get sr1 s; reg_set (dr s) (u16 (Z.land a sr2)) s
       else
         let imm5 := sign_extend (Z.land instr 0x1F) 5 in
         a ← reg_get sr1 s; reg_set (dr s) (u16 (Z.land a imm5)) s);
  update_flags (dr s) s.

Definition case_OP_LDR (instr : Z) (s : State) : option State :=
  let s := set_dr (Z.land (Z.shiftr instr 9) 0x7) s in
  let BaseR := Z.land (Z.shiftr instr 6) 0x7 in
  let offset6 := sign_extend (Z.land instr 0x3FF) 6 in
  b ← reg_get BaseR s;
  v ← mem_read (u16 (b + offset6)) s;
  s ← reg_set (dr s) v s;
  update_flags (dr s) s.

Definition case_OP_STR (instr : Z) (s : State) : option State :=
  let sr := Z.land (Z.shiftr instr 6) 0x7 in
  let BaseR := Z.land (Z.shiftr instr 6) 0x7 in
  let offset6 := sign_extend (Z.land instr 0x1FF) 6 in
  v ← mem_read (u16 (offset6 + BaseR)) s;
  s ← reg_set sr v s;
  update_flags (dr s) s.

Definition case_OP_NOT (instr : Z) (s : State) : option State :=
  let s := set_dr (Z.land (Z.shiftr instr 9) 0x7) s in
  let sr := Z.land (Z.shiftr instr 6) 0x7 in
  a ← reg_get sr s;
  s ← reg_set (dr s) (u16 (Z.lnot a)) s;
  update_flags (dr s) s.

Definition case_OP_LDI (instr : Z) (s : State) : option State :=
  let s := set_dr (Z.land (Z.shiftr instr 9) 0x7) s in
  let PCoffset9 := sign_extend (Z.land instr 0x1FF) 9 in
  pc ← reg_get RG_PC s;
  p ← mem_read (u16 (PCoffset9 + pc)) s;
  v ← mem_read p s;
  s ← reg_set (dr s) v s;
  update_flags (dr s) s.

Definition case_OP_STI (instr : Z) (s : State) : option State :=
  let sr := Z.land (Z.shiftr instr 6) 0x7 in
  let PCoffset9 := sign_extend (Z.land instr 0x1FF) 9 in
  pc ← reg_get RG_PC s;
  p ← mem_read (u16 (PCoffset9 + pc)) s;
  v ← mem_read p s;
  s ← reg_set sr v s;
  update_flags (dr s) s.

Definition case_OP_JMP (instr : Z) (s : State) : option State :=
  let BaseR := Z.land (Z.shiftr instr 6) 0x7 in
  b ← reg_get BaseR s;
  s ← reg_set RG_PC b s;
  update_flags (dr s) s.

Definition case_OP_LEA (instr : Z) (s : State) : option State :=
  let s := set_dr (Z.land (Z.shiftr instr 9) 0x7) s in
  let PCoffset9 := sign_extend (Z.land instr 0x1FF) 9 in
  pc ← reg_get RG_PC s;
  s ← reg_set (dr s) (u16 (pc + PCoffset9)) s;
  update_flags (dr s) s.

(** [case OP_TRAP: //{TRAP}; break;] *)
Definition case_OP_TRAP (instr : Z) (s : State) : option State := Some s.

(** [case OP_RES: case OP_RTI: default: //{BAD_OPCODE} break;] *)
Definition case_default (instr : Z) (s : State) : option State := Some s.

(** ** The loop body *)

(** [switch (op)], with [op = instr >> 12]. *)
Definition execute (instr : Z) (s : State) : option State :=
  let op := Z.shiftr instr 12 in
  if op =? OP_BR then case_OP_BR instr s
  else if op =? OP_ADD then case_OP_ADD instr s
  else if op =? OP_LD then case_OP_LD instr s
  else if op =? OP_ST then case_OP_ST instr s
  else if op =? OP_JSR then case_OP_JSR instr s
  else if op =? OP_AND then case_OP_AND instr s
  else if op =? OP_LDR then case_OP_LDR instr s
  else if op =? OP_STR then case_OP_STR instr s
  else if op =? OP_NOT then case_OP_NOT instr s
  else if op =? OP_LDI then case_OP_LDI instr s
  else if op =? OP_STI then case_OP_STI instr s
  else if op =? OP_JMP then case_OP_JMP instr s
  else if op =? OP_LEA then case_OP_LEA instr s
  else if op =? OP_TRAP then case_OP_TRAP instr s
  else case_default instr s.

(** [uint16_t instr = mem_read(reg[RG_PC]++);] *)
Definition fetch (s : State) : option (Z * State) :=
  pc ← reg_get RG_PC s;
  s ← reg_set RG_PC (u16 (pc + 1)) s;
  instr ← mem_read pc s;
  Some (instr, s).

Definition step (s : State) : option State :=
  '(instr, s) ← fetch s; execute instr s.

(** [while (running) { ... }], cut off after [fuel] iterations.  The loop
    has been left exactly when the state returned has [running] equal to
    [FALSE]. *)
Fixpoint run (fuel : nat) (s : State) : option State :=
  match fuel with
  | O => Some s
  | S fuel => if running s =? FALSE then Some s else s ← step s; run fuel s
  end.

(** ** [main] *)

Inductive Outcome : Type :=
| Exited (stdout : list string) (code : Z)
| Looped (final : option State).

Definition newline : string := String (Ascii.ascii_of_nat 10) EmptyString.

(** The zero-initialised globals, then [reg[RG_COND] = FL_Z],
    [reg[RG_PC] = 0x3000] and [running = TRUE].  [d] is the value the
    uninitialised [dr] happens to hold. *)
Definition initial_state (d : Z) : State :=
  let s := mkState (replicate (Z.to_nat RG_COUNT) 0)
                   (replicate (Z.to_nat UINT16_MAX) 0) TRUE d in
  let s := set_reg_array (<[Z.to_nat RG_COND := FL_Z]> (reg s)) s in
  set_reg_array (<[Z.to_nat RG_PC := 0x3000]> (reg s)) s.

(** [for (int i = 1; i < argc; i++) { printf(...); exit(1); }]: the body
    leaves the process at its first iteration; [None] when the loop ends
    without having run. *)
Definition load_images (images : list string) : option Outcome :=
  match images with
  | [] => None
  | image :: _ =>
      Some (Exited ["failed to load image: " +:+ image +:+ newline] 1)
  end.

(** [argv] holds the program name and then the image files; [argc] is its
    length.  The calls that set the terminal up and restore it are outside
    the machine and are left out. *)
Definition main (fuel : nat) (d : Z) (argv : list string) : Outcome :=
  let argc := Z.of_nat (length argv) in
  if argc <? 2 then Exited ["usage: [image-file1] ..." +:+ newline] 2
  else match load_images (drop 1 argv) with
       | Some out => out
       | None => Looped (run fuel (initial_state d))
       end.

(** ** Reading the flags

    The flag that the specification attaches to a word: zero, else the
    sign bit of its 16-bit two's-complement reading. *)
Definition sign_flag (x : Z) : Z :=
  if x =? 0 then FL_Z else if Z.testbit x 15 then FL_N else FL_P.

(** [frame s s']: [s'] differs from [s] at most in the contents of the
    register array and in [dr]. *)
Definition frame (s s' : State) : Prop :=
  running s' = running s /\ memory s' = memory s /\
  length (reg s') = length (reg s).

(** [defined o]: the computation [o] did not leave the declared arrays. *)
Definition defined {A : Type} (o : option A) : bool :=
  match o with Some _ => true | None => false end.

(** ** Concrete machines

    [machine regs cells d] has the ten registers [regs], a memory that is
    zero except at the listed [(address, word)] cells, a running loop and
    [d] in [dr]. *)
Definition zero_memory : list Z := replicate (Z.to_nat UINT16_MAX) 0.

Definition machine (regs : list Z) (cells : list (Z * Z)) (d : Z) : State :=
  mkState regs
          (foldr (fun '(a, v) m => <[Z.to_nat a := v]> m) zero_memory cells)
          TRUE d.

Definition R (r0 r1 r2 r3 r4 r5 r6 r7 pc cond : Z) : list Z :=
  [r0; r1; r2; r3; r4; r5; r6; r7; pc; cond].

(** Scenario A of the specification: R1 = 5 and R2 = 3, the instruction
    already fetched from 0x3000. *)
Definition scenario_A : State :=
  machine (R 0 5 3 0 0 0 0 0 0x3001 FL_Z) [] 0.

(** ST R1, #0x43 at 0x3000, with R1 = 0x1234 written last (so [dr] is 1
    and the flags say Positive) and 0x8000 in the target cell 0x3044. *)
Definition st_machine : State :=
  machine (R 0 0x1234 0 0 0 0 0 0 0x3000 FL_P)
          [(0x3000, 0x3243); (0x3044, 0x8000)] 1.

(** The same machine with STI R1, #0x43: cell 0x3044 points to 0x8000. *)
Definition sti_machine : State :=
  machine (R 0 0x1234 0 0 0 0 0 0 0x3000 FL_P)
          [(0x3000, 0xB243); (0x3044, 0x8000)] 1.

(** TRAP 0x25 at 0x3000. *)
Definition halt_machine : State :=
  machine (R 0 0 0 0 0 0 0 0 0x3000 FL_Z) [(0x3000, 0xF025)] 0.

Definition halt_machine_next : State :=
  machine (R 0 0 0 0 0 0 0 0 0x3001 FL_Z) [(0x3000, 0xF025)] 0.

(** JSRR R2 at 0x3000, with R2 = 0x4000. *)
Definition jsrr_machine : State :=
  machine (R 0 0 0x4000 0 0 0 0 0 0x3000 FL_Z) [(0x3000, 0x4080)] 0.

(** JSR #-2 at 0x3000. *)
Definition jsr_machine : State :=
  machine (R 0 0 0 0 0 0 0 0 0x3000 FL_Z) [(0x3000, 0x4FFE)] 0.

(** STR R1, R2, #0 at 0x3000 and LDR R3, R2, #0 at 0x3001, with R1 = 5
    written last and R2 = 0x4000. *)
Definition str_ldr_machine : State :=
  machine (R 0 5 0x4000 0 0 0 0 0 0x3000 FL_P)
          [(0x3000, 0x7280); (0x3001, 0x6680)] 1.

(** LDI R0, #0 at 0x3000; the pointer cell 0x3001 holds 0xFFFF. *)
Definition ldi_machine : State :=
  machine (R 0 0 0 0 0 0 0 0 0x3000 FL_Z)
          [(0x3000, 0xA000); (0x3001, 0xFFFF)] 0.

(** ADD R0, R0, #0 at 0x3000, then ST R1, #0x43 at 0x3001; the cell
    0x3045 that ST reads holds 0x8000. *)
Definition add_st_machine : State :=
  machine (R 0 0 0 0 0 0 0 0 0x3000 FL_Z)
          [(0x3000, 0x1020); (0x3001, 0x3243); (0x3045, 0x8000)] 0.

(** ST R1, #0x43 alone at 0x3000, reading 0x8000 from cell 0x3044, with
    [d] in [dr]. *)
Definition st_machine_with (d : Z) : State :=
  machine (R 0 0 0 0 0 0 0 0 0x3000 FL_Z)
          [(0x3000, 0x3243); (0x3044, 0x8000)] d.

(** An instruction with opcode bits 1101 at 0x3000. *)
Definition res_machine : State :=
  machine (R 1 2 3 4 5 6 7 8 0x3000 FL_P) [(0x3000, 0xD000)] 3.

(** ** Readings used by the further properties *)

(** An [N]-bit field read as a two's-complement number. *)
Definition signed_field (N v : Z) : Z :=
  if Z.testbit v (N - 1) then v - 2 ^ N else v.

(** The state after [reg[d] = v; update_flags(d);], with [dr] left at
    [d]: register [d] holds [v] and COND holds the flag of [v]. *)
Definition load_result (s : State) (d v : Z) : State :=
  mkState (<[Z.to_nat RG_COND := sign_flag v]> (<[Z.to_nat d := v]> (reg s)))
          (memory s) (running s) d.

(** The state after [reg[RG_PC] = pc;]. *)
Definition set_pc (pc : Z) (s : State) : State :=
  set_reg_array (<[Z.to_nat RG_PC := pc]> (reg s)) s.

(** COND holds one of the three flags. *)
Definition one_flag (s : State) : Prop :=
  reg_get RG_COND s = Some FL_P \/ reg_get RG_COND s = Some FL_Z \/
  reg_get RG_COND s = Some FL_N.


(** A machine with a few registers and cells set: cell 0x3003 points to
    cell 0x3010, which holds 0xABCD; everything else is zero. *)
Definition demo_machine (pc : Z) : State :=
  machine (R 5 0x8000 0x3011 0 0 0 0 0x4000 pc FL_P)
          [(0x3003, 0x3010); (0x3010, 0xABCD)] 0.

(** ADD R0, R0, #-1, then NOT R1, R0, then LD R2, #1 from 0x3000 on; the
    cell 0x3004 that LD reads holds 0x1234. *)
Definition flag_machine : State :=
  machine (R 0 0 0 0 0 0 0 0 0x3000 FL_Z)
          [(0x3000, 0x103F); (0x3001, 0x923F); (0x3002, 0x2401);
           (0x3004, 0x1234)] 0.

(** ** The earlier revision, [src/unnamed/part_000]

    Its [main] has the same start-up and the same fetch; in its [switch]
    every case is an empty block, the macros [BR], [ADD], ... being defined
    to nothing. *)
Module Part000.

Definition execute (instr : Z) (s : State) : option State := Some s.

Definition step (s : State) : option State :=
  '(instr, s) ← fetch s; execute instr s.

Fixpoint run (fuel : nat) (s : State) : option State :=
  match fuel with
  | O => Some s
  | S fuel => if running s =? FALSE then Some s else s ← step s; run fuel s
  end.

End Part000.

(** * Auxiliary facts *)

Lemma u16_range x : is_u16 (u16 x).
Proof. unfold is_u16, u16. apply Z.mod_pos_bound. lia. Qed.

Lemma u16_small x : is_u16 x -> u16 x = x.
Proof. unfold is_u16, u16. intros H. apply Z.mod_small. lia. Qed.

(** ** Inversion of the option monad *)

Ltac unbind :=
  repeat match goal with
  | H : _ ≫= _ = Some _ |- _ => apply bind_Some in H as (? & ? & H)
  | H : (if ?b then _ else _) = Some _ |- _ => destruct b
  | H : Some _ = Some _ |- _ => injection H as <-
  end.

(** ** Nothing but the registers changes *)

Lemma frame_refl s : frame s s.
Proof. repeat split. Qed.

Lemma frame_trans s1 s2 s3 : frame s1 s2 -> frame s2 s3 -> frame s1 s3.
Proof. unfold frame. intros (?&?&?) (?&?&?). repeat split; congruence. Qed.

Lemma reg_set_frame r v s s' : reg_set r v s = Some s' -> frame s s'.
Proof.
  unfold reg_set. destruct (reg s !! Z.to_nat r); [|discriminate].
  intros [= <-]. repeat split. simpl. apply length_insert.
Qed.

Lemma update_flags_frame r s s' : update_flags r s = Some s' -> frame s s'.
Proof.
  unfold update_flags. intros H. unbind; eauto using reg_set_frame.
Qed.

Ltac frame_chain :=
  repeat match goal with
  | H : reg_set _ _ _ = Some _ |- _ => apply reg_set_frame in H
  | H : update_flags _ _ = Some _ |- _ => apply update_flags_frame in H
  end;
  unfold frame in *; cbn [running memory reg set_dr] in *;
  intuition congruence.

Lemma execute_frame instr s s' : execute instr s = Some s' -> frame s s'.
Proof.
  unfold execute. intros H.
  repeat match type of H with (if ?b then _ else _) = _ => destruct b end;
  cbv beta zeta delta
    [case_OP_BR case_OP_ADD case_OP_LD case_OP_ST case_OP_JSR case_OP_AND
     case_OP_LDR case_OP_STR case_OP_NOT case_OP_LDI case_OP_STI case_OP_JMP
     case_OP_LEA case_OP_TRAP case_default] in H;
  unbind; frame_chain.
Qed.

Lemma fetch_frame s instr s' : fetch s = Some (instr, s') -> frame s s'.
Proof. unfold fetch. intros H. unbind. simplify_eq. frame_chain. Qed.

Lemma step_frame s s' : step s = Some s' -> frame s s'.
Proof.
  unfold step. intros H. apply bind_Some in H as ([instr s1] & Hf & He).
  eapply frame_trans; eauto using fetch_frame, execute_frame.
Qed.

Lemma run_frame fuel : forall s s', run fuel s = Some s' -> frame s s'.
Proof.
  induction fuel as [|fuel IH]; intros s s' H; simpl in H.
  - injection H as <-. apply frame_refl.
  - destruct (running s =? FALSE).
    + injection H as <-. apply frame_refl.
    + apply bind_Some in H as (s1 & Hs & H).
      eapply frame_trans; eauto using step_frame.
Qed.

Lemma step_memory s :
  defined (step s) = true -> memory <$> step s = Some (memory s).
Proof.
  destruct (step s) as [s'|] eqn:E; [intros _|discriminate].
  apply step_frame in E. destruct E as (_ & E & _).
  cbn [fmap option_fmap option_map]. now rewrite E.
Qed.

Lemma run_memory fuel s :
  defined (run fuel s) = true -> memory <$> run fuel s = Some (memory s).
Proof.
  destruct (run fuel s) as [s'|] eqn:E; [intros _|discriminate].
  apply run_frame in E. destruct E as (_ & E & _).
  cbn [fmap option_fmap option_map]. now rewrite E.
Qed.

(** ** Properties of [sign_extend] *)

Section SignExtend.

Variables (N v : Z).
Hypothesis HN : 1 <= N <= 16.
Hypothesis Hv : 0 <= v < 2 ^ N.

Lemma top_bit_test :
  Z.land (Z.shiftr v (N - 1)) 1 = Z.b2z (Z.testbit v (N - 1)).
Proof.
  rewrite Z.testbit_spec' by lia.
  rewrite Z.shiftr_div_pow2 by lia.
  change 1 with (Z.ones 1). rewrite Z.land_ones by lia.
  reflexivity.
Qed.

Lemma field_disjoint_from_fill : Z.land v (Z.shiftl 65535 N) = 0.
Proof.
  apply Z.bits_inj'. intros i Hi.
  rewrite Z.land_spec, Z.bits_0.
  destruct (Z.ltb_spec i N) as [Hlt|Hge].
  - rewrite (Z.shiftl_spec_low 65535 N i) by lia. apply andb_false_r.
  - destruct (Z.eqb_spec v 0) as [->|Hnz]; [now rewrite Z.bits_0|].
    rewrite (Z.bits_above_log2 v i); [reflexivity|lia|].
    apply Z.log2_lt_pow2; [lia|].
    apply Z.lt_le_trans with (2 ^ N); [lia|].
    apply Z.pow_le_mono_r; lia.
Qed.

Lemma sign_extend_clear : Z.testbit v (N - 1) = false -> sign_extend v N = v.
Proof.
  intros Hb. unfold sign_extend. rewrite top_bit_test, Hb. reflexivity.
Qed.

Lemma sign_extend_set :
  Z.testbit v (N - 1) = true -> sign_extend v N = (v - 2 ^ N) mod 2 ^ 16.
Proof.
  intros Hb. unfold sign_extend. rewrite top_bit_test, Hb. simpl.
  rewrite <- Z.lxor_lor by apply field_disjoint_from_fill.
  rewrite <- Z.add_nocarry_lxor by apply field_disjoint_from_fill.
  rewrite Z.shiftl_mul_pow2 by lia.
  unfold u16.
  replace (v + 65535 * 2 ^ N) with ((v - 2 ^ N) + 2 ^ N * 2 ^ 16) by lia.
  apply Z_mod_plus_full.
Qed.

End SignExtend.

(** C8.  For every width [N] from 1 to 16 and every [N]-bit field [v]:
    [sign_extend v N] is [v] itself when bit [N-1] of [v] is 0, and is
    [v - 2^N] taken modulo [2^16] when bit [N-1] is 1. *)
Theorem sign_extend_spec (N v : Z) :
  1 <= N <= 16 -> 0 <= v < 2 ^ N ->
  (Z.testbit v (N - 1) = false -> sign_extend v N = v) /\
  (Z.testbit v (N - 1) = true -> sign_extend v N = (v - 2 ^ N) mod 2 ^ 16).
Proof.
  intros HN Hv. split.
  - now apply sign_extend_clear.
  - now apply sign_extend_set.
Qed.

Lemma sign_extend_spec_witness :
  (1 <= 5 <= 16) /\ (0 <= 31 < 2 ^ 5) /\ (0 <= 15 < 2 ^ 5) /\
  sign_extend 15 5 = 15 /\ sign_extend 31 5 = (31 - 2 ^ 5) mod 2 ^ 16.
Proof.
  assert (HN : 1 <= 5 <= 16) by lia.
  assert (H31 : 0 <= 31 < 2 ^ 5) by lia.
  assert (H15 : 0 <= 15 < 2 ^ 5) by lia.
  split; [exact HN|]. split; [exact H31|]. split; [exact H15|]. split.
  - apply (proj1 (sign_extend_spec 5 15 HN H15)). reflexivity.
  - apply (proj2 (sign_extend_spec 5 31 HN H31)). reflexivity.
Defined.

(** * The reserved opcodes *)

(** A loop iteration whose case leaves the state alone is the fetch and
    nothing more. *)
Lemma step_of_noop (s0 : State) (instr : Z) :
  (forall s, execute instr s = Some s) ->
  fst <$> fetch s0 = Some instr ->
  step s0 = snd <$> fetch s0 /\
  (running s0 = TRUE ->
   forall fuel, run (S fuel) s0 = (snd <$> fetch s0) ≫= run fuel).
Proof.
  intros He Hf.
  assert (Hs : step s0 = snd <$> fetch s0).
  { unfold step. destruct (fetch s0) as [[i s1]|]; [|discriminate Hf].
    injection Hf as ->. simpl. apply He. }
  split; [exact Hs|]. intros Hr fuel. simpl. rewrite Hr, Hs. reflexivity.
Qed.

(** C9.  An instruction whose opcode is RES (bits 1101) or RTI changes
    nothing: the general-purpose registers, the flags, the memory and the
    already incremented PC are what they were after the fetch, and the loop
    goes on with the next iteration. *)
Theorem reserved_opcodes_are_noops (instr : Z) :
  Z.shiftr instr 12 = OP_RES \/ Z.shiftr instr 12 = OP_RTI ->
  (forall s, execute instr s = Some s) /\
  (forall s0, fst <$> fetch s0 = Some instr ->
     step s0 = snd <$> fetch s0 /\
     (running s0 = TRUE ->
      forall fuel, run (S fuel) s0 = (snd <$> fetch s0) ≫= run fuel)).
Proof.
  intros Hop.
  assert (He : forall s, execute instr s = Some s).
  { intros s. unfold execute. destruct Hop as [-> | ->]; reflexivity. }
  split; [exact He|]. intros s0. now apply step_of_noop.
Qed.

Lemma reserved_opcodes_are_noops_witness :
  Z.shiftr 0xD000 12 = OP_RES /\
  fst <$> fetch res_machine = Some 0xD000 /\
  running res_machine = TRUE /\
  execute 0xD000 res_machine = Some res_machine /\
  step res_machine = snd <$> fetch res_machine /\
  run 1 res_machine = (snd <$> fetch res_machine) ≫= run 0.
Proof.
  assert (Hop : Z.shiftr 0xD000 12 = OP_RES) by reflexivity.
  assert (Hf : fst <$> fetch res_machine = Some 0xD000)
    by (vm_compute; reflexivity).
  assert (Hr : running res_machine = TRUE) by reflexivity.
  destruct (reserved_opcodes_are_noops 0xD000 (or_introl Hop)) as (T1 & T2).
  destruct (T2 res_machine Hf) as (T3 & T4).
  split; [exact Hop|]. split; [exact Hf|]. split; [exact Hr|].
  split; [exact (T1 res_machine)|]. split; [exact T3|].
  exact (T4 Hr 0%nat).
Defined.

(** * Leaving the loop *)

(** C3.  TRAP 0x25 fetched from 0x3000: after the iteration the loop flag
    is still [TRUE], and the loop goes on to fetch the word at 0x3001 and
    to leave 0x3002 in the PC, where the specification has the loop
    Halted and no further fetch. *)
Lemma TRAP_HALT_does_not_halt :
  running <$> step halt_machine = Some TRUE /\
  TRUE <> FALSE /\
  fst <$> (step halt_machine ≫= fetch) = Some 0 /\
  (run 2 halt_machine ≫= reg_get RG_PC) = Some 0x3002.
Proof. repeat split; try discriminate; vm_compute; reflexivity. Qed.

(** The case of TRAP is empty and nothing assigns [running]: a TRAP
    instruction leaves the state as the fetch left it, and no iteration
    that is defined, whatever the opcode, changes the loop flag. *)
Theorem no_opcode_leaves_the_loop :
  (forall instr, Z.shiftr instr 12 = OP_TRAP ->
     (forall s, execute instr s = Some s) /\
     (forall s0, fst <$> fetch s0 = Some instr ->
        step s0 = snd <$> fetch s0 /\
        (running s0 = TRUE ->
         forall fuel, run (S fuel) s0 = (snd <$> fetch s0) ≫= run fuel))) /\
  (forall s s', step s = Some s' -> running s' = running s) /\
  (forall fuel s s', running s = TRUE -> run fuel s = Some s' ->
                     running s' = TRUE).
Proof.
  split; [|split].
  - intros instr Hop.
    assert (He : forall s, execute instr s = Some s).
    { intros s. unfold execute. rewrite Hop. reflexivity. }
    split; [exact He|]. intros s0. now apply step_of_noop.
  - intros s s' H. apply step_frame in H. apply H.
  - intros fuel s s' Hr H. apply run_frame in H.
    destruct H as (H & _). congruence.
Qed.

Lemma no_opcode_leaves_the_loop_witness :
  Z.shiftr 0xF025 12 = OP_TRAP /\
  fst <$> fetch halt_machine = Some 0xF025 /\
  running halt_machine = TRUE /\
  execute 0xF025 halt_machine_next = Some halt_machine_next /\
  step halt_machine = snd <$> fetch halt_machine /\
  run 1 halt_machine = (snd <$> fetch halt_machine) ≫= run 0 /\
  running <$> step halt_machine = Some (running halt_machine) /\
  running <$> run 3 halt_machine = Some TRUE.
Proof.
  assert (Hop : Z.shiftr 0xF025 12 = OP_TRAP) by reflexivity.
  assert (Hf : fst <$> fetch halt_machine = Some 0xF025)
    by (vm_compute; reflexivity).
  assert (Hr : running halt_machine = TRUE) by reflexivity.
  assert (Hs : defined (step halt_machine) = true) by (vm_compute; reflexivity).
  assert (H3 : defined (run 3 halt_machine) = true) by (vm_compute; reflexivity).
  destruct no_opcode_leaves_the_loop as (T & T3 & T4).
  destruct (T 0xF025 Hop) as (T1 & T2).
  destruct (T2 halt_machine Hf) as (T2a & T2b).
  split; [exact Hop|]. split; [exact Hf|]. split; [exact Hr|].
  split; [exact (T1 halt_machine_next)|].
  split; [exact T2a|]. split; [exact (T2b Hr 0%nat)|]. split.
  - destruct (step halt_machine) as [s'|] eqn:E; [|discriminate Hs].
    cbn [fmap option_fmap option_map]. f_equal. exact (T3 halt_machine s' E).
  - destruct (run 3 halt_machine) as [s'|] eqn:E; [|discriminate H3].
    cbn [fmap option_fmap option_map]. f_equal.
    exact (T4 3%nat halt_machine s' Hr E).
Defined.

(** * Start-up *)

(** C10.  Whenever at least one image file is named on the command line,
    [main] prints the load-failure message for the first of them and exits
    with code 1; the loop is not entered, whatever the fuel. *)
Theorem main_fails_on_first_image (fuel : nat) (d : Z) (argv : list string) :
  (2 <= length argv)%nat ->
  exists image,
    argv !! 1%nat = Some image /\
    main fuel d argv =
      Exited ["failed to load image: " +:+ image +:+ newline] 1.
Proof.
  intros Hlen.
  destruct argv as [|prog [|image rest]]; simpl in Hlen; try lia.
  exists image. split; [reflexivity|].
  unfold main.
  destruct (Z.ltb_spec (Z.of_nat (length (prog :: image :: rest))) 2) as [Hlt|_].
  - simpl length in Hlt. lia.
  - reflexivity.
Qed.

Lemma main_fails_on_first_image_witness :
  (2 <= length ["tyvm"; "2048.obj"])%nat /\
  exists image,
    ["tyvm"; "2048.obj"] !! 1%nat = Some image /\
    main 100 0 ["tyvm"; "2048.obj"] =
      Exited ["failed to load image: " +:+ image +:+ newline] 1.
Proof.
  assert (Hlen : (2 <= length ["tyvm"; "2048.obj"])%nat) by (simpl; lia).
  split; [exact Hlen|].
  exact (main_fails_on_first_image 100 0 ["tyvm"; "2048.obj"] Hlen).
Defined.

(** * Flags *)

Lemma field3_range (x : Z) : 0 <= Z.land x 0x7 < 8.
Proof.
  change 0x7 with (Z.ones 3). rewrite Z.land_ones by lia.
  apply Z.mod_pos_bound. lia.
Qed.

Lemma high_bit (x : Z) :
  is_u16 x -> negb (Z.shiftr x 15 =? 0) = Z.testbit x 15.
Proof.
  unfold is_u16. intros Hx.
  rewrite Z.testbit_odd, Z.shiftr_div_pow2 by lia.
  assert (Hq : 0 <= x / 2 ^ 15 < 2).
  { split; [apply Z.div_pos; lia|apply Z.div_lt_upper_bound; lia]. }
  assert (Hc : x / 2 ^ 15 = 0 \/ x / 2 ^ 15 = 1) by lia.
  destruct Hc as [-> | ->]; reflexivity.
Qed.

Lemma sign_flag_one_hot (x : Z) :
  (sign_flag x = FL_P /\ sign_flag x <> FL_Z /\ sign_flag x <> FL_N) \/
  (sign_flag x = FL_Z /\ sign_flag x <> FL_P /\ sign_flag x <> FL_N) \/
  (sign_flag x = FL_N /\ sign_flag x <> FL_P /\ sign_flag x <> FL_Z).
Proof.
  unfold sign_flag. destruct (x =? 0); [|destruct (Z.testbit x 15)];
    vm_compute; intuition congruence.
Qed.

Section RegisterFile.

Variable s : State.
Hypothesis Hlen : length (reg s) = Z.to_nat RG_COUNT.

Lemma reg_set_defined (r v : Z) :
  0 <= r < RG_COUNT ->
  reg_set r v s = Some (set_reg_array (<[Z.to_nat r := v]> (reg s)) s).
Proof.
  intros Hr. unfold reg_set.
  destruct (lookup_lt_is_Some_2 (reg s) (Z.to_nat r)) as [x ->]; [|reflexivity].
  rewrite Hlen. unfold RG_COUNT in *. lia.
Qed.

(** [update_flags r] leaves in COND the one flag that goes with the word
    held by [reg[r]], and touches nothing else. *)
Lemma update_flags_sound (r x : Z) :
  is_u16 x -> reg_get r s = Some x ->
  update_flags r s =
    Some (set_reg_array (<[Z.to_nat RG_COND := sign_flag x]> (reg s)) s).
Proof.
  intros Hx Hr. unfold update_flags. rewrite Hr. simpl.
  unfold sign_flag. rewrite (high_bit x Hx).
  destruct (x =? 0); [|destruct (Z.testbit x 15)]; simpl;
    apply reg_set_defined; unfold RG_COND, RG_COUNT; lia.
Qed.

End RegisterFile.

(** The closing lines of the cases that load a register: [reg[dr] = v;
    update_flags(dr);] with [dr] a three-bit field.  The flags are those
    of the word just written. *)
Lemma write_dest_then_flags (s : State) (v : Z) :
  length (reg s) = Z.to_nat RG_COUNT -> 0 <= dr s < 8 -> is_u16 v ->
  reg_set (dr s) v s ≫= (fun s' => update_flags (dr s') s') =
    Some (set_reg_array
            (<[Z.to_nat RG_COND := sign_flag v]>
               (<[Z.to_nat (dr s) := v]> (reg s)))
            s).
Proof.
  intros Hlen Hd Hv.
  rewrite reg_set_defined by (unfold RG_COUNT; lia || exact Hlen).
  cbn [mbind option_bind dr set_reg_array].
  erewrite update_flags_sound; [reflexivity| |exact Hv|].
  - simpl. now rewrite length_insert.
  - unfold reg_get. simpl. apply list_lookup_insert_eq.
    rewrite Hlen. unfold RG_COUNT. lia.
Qed.

(** * ADD and AND *)

(** What the two arithmetic cases compute, in both modes: the second
    operand of register mode is the three-bit field itself. *)
Lemma case_OP_ADD_computes (instr a : Z) (s : State) :
  length (reg s) = Z.to_nat RG_COUNT ->
  reg_get (Z.land (Z.shiftr instr 6) 0x7) s = Some a ->
  let d := Z.land (Z.shiftr instr 9) 0x7 in
  let operand :=
    if Z.land (Z.shiftr instr 5) 0x1 =? 0 then Z.land instr 0x7
    else sign_extend (Z.land instr 0x1F) 5 in
  let v := u16 (a + operand) in
  case_OP_ADD instr s =
    Some (mkState
            (<[Z.to_nat RG_COND := sign_flag v]> (<[Z.to_nat d := v]> (reg s)))
            (memory s) (running s) d).
Proof.
  intros Hlen Ha d operand v. unfold case_OP_ADD. cbv zeta.
  fold d. subst operand v.
  assert (Hget : reg_get (Z.land (Z.shiftr instr 6) 0x7) (set_dr d s) = Some a)
    by exact Ha.
  destruct (Z.land (Z.shiftr instr 5) 0x1 =? 0);
    rewrite Hget; cbn [mbind option_bind dr set_dr];
    apply (write_dest_then_flags (set_dr d s));
    simpl; try apply field3_range; auto using u16_range.
Qed.

Lemma case_OP_AND_computes (instr a : Z) (s : State) :
  length (reg s) = Z.to_nat RG_COUNT ->
  reg_get (Z.land (Z.shiftr instr 6) 0x7) s = Some a ->
  let d := Z.land (Z.shiftr instr 9) 0x7 in
  let operand :=
    if Z.land (Z.shiftr instr 5) 0x1 =? 0 then Z.land instr 0x7
    else sign_extend (Z.land instr 0x1F) 5 in
  let v := u16 (Z.land a operand) in
  case_OP_AND instr s =
    Some (mkState
            (<[Z.to_nat RG_COND := sign_flag v]> (<[Z.to_nat d := v]> (reg s)))
            (memory s) (running s) d).
Proof.
  intros Hlen Ha d operand v. unfold case_OP_AND. cbv zeta.
  fold d. subst operand v.
  assert (Hget : reg_get (Z.land (Z.shiftr instr 6) 0x7) (set_dr d s) = Some a)
    by exact Ha.
  destruct (Z.land (Z.shiftr instr 5) 0x1 =? 0);
    rewrite Hget; cbn [mbind option_bind dr set_dr];
    apply (write_dest_then_flags (set_dr d s));
    simpl; try apply field3_range; auto using u16_range.
Qed.

(** C1.  Scenario A of the specification, ADD R0, R1, R2 with R1 = 5 and R2
    = 3: the code leaves 7 in R0, the sum of R1 and of the register number
    2, where the specification has 8.  AND R0, R1, R2 on the same machine
    leaves 5 AND 2 = 0 with the flag Zero, where the specification has 5 AND
    3 = 1 with the flag Positive. *)
Theorem register_mode_takes_the_register_number :
  reg <$> execute 0x1042 scenario_A = Some (R 7 5 3 0 0 0 0 0 0x3001 FL_P) /\
  reg <$> execute 0x5042 scenario_A = Some (R 0 5 3 0 0 0 0 0 0x3001 FL_Z).
Proof. split; vm_compute; reflexivity. Qed.

(** * The store instructions *)

(** C2.  ST R1, #0x43 with R1 = 0x1234 and 0x8000 in the target cell:
    the memory is left as it was and R1 receives 0x8000, the flags going
    from Positive to Negative.  STI on the same machine does the same
    through the pointer: R1 receives the 0 of cell 0x8000 and the flags go
    to Zero. *)
Theorem ST_and_STI_load_instead_of_storing :
  memory <$> step st_machine = Some (memory st_machine) /\
  mem_read 0x3044 st_machine = Some 0x8000 /\
  reg <$> step st_machine = Some (R 0 0x8000 0 0 0 0 0 0 0x3001 FL_N) /\
  memory <$> step sti_machine = Some (memory sti_machine) /\
  mem_read 0x8000 sti_machine = Some 0 /\
  reg <$> step sti_machine = Some (R 0 0 0 0 0 0 0 0 0x3001 FL_Z).
Proof.
  split; [|split; [|split; [|split; [|split]]]].
  - apply step_memory. vm_compute; reflexivity.
  - vm_compute; reflexivity.
  - vm_compute; reflexivity.
  - apply step_memory. vm_compute; reflexivity.
  - vm_compute; reflexivity.
  - vm_compute; reflexivity.
Qed.

(** * Subroutine calls *)

(** Whatever the instruction, the JSR case leaves R7 as it found it. *)
Lemma case_OP_JSR_keeps_R7 (instr : Z) (s s' : State) :
  case_OP_JSR instr s = Some s' -> reg_get RG_111 s' = reg_get RG_111 s.
Proof.
  unfold case_OP_JSR. cbv zeta. intros H.
  assert (Hset : forall v, reg_set RG_PC v s = Some s' ->
                           reg_get RG_111 s' = reg_get RG_111 s).
  { intros v Hv. unfold reg_set in Hv.
    destruct (reg s !! Z.to_nat RG_PC); [|discriminate].
    injection Hv as <-. unfold reg_get. simpl.
    now apply list_lookup_insert_ne. }
  destruct (Z.land (Z.shiftr instr 11) 0x1 =? 0); [now apply Hset in H|].
  apply bind_Some in H as (pc & _ & H). now apply Hset in H.
Qed.

(** C4.  JSRR R2 fetched from 0x3000 with R2 = 0x4000: R7 keeps its 0 and
    the PC becomes 2, the number of the base register, where the
    specification has R7 = 0x3001 and PC = 0x4000.  JSR #-2 fetched from
    0x3000: R7 keeps its 0 and the PC becomes 0x3001 + 0x1FE, the low nine
    bits taken unsigned, where the specification has R7 = 0x3001 and PC =
    0x2FFF. *)
Theorem JSR_saves_nothing_and_jumps_elsewhere :
  reg <$> step jsrr_machine = Some (R 0 0 0x4000 0 0 0 0 0 2 FL_Z) /\
  reg <$> step jsr_machine = Some (R 0 0 0 0 0 0 0 0 0x31FF FL_Z).
Proof. split; vm_compute; reflexivity. Qed.

(** * STR followed by LDR *)

(** C5.  STR R1, R2, #0 then LDR R3, R2, #0 with R1 = 5 and R2 = 0x4000: the
    first instruction leaves the memory as it was and overwrites R2 with the
    0 of cell 0x82, the second one leaves 0 in R3, where the specification
    has 5. *)
Theorem STR_then_LDR_loses_the_value :
  reg <$> run 1 str_ldr_machine = Some (R 0 5 0 0 0 0 0 0 0x3001 FL_P) /\
  memory <$> run 1 str_ldr_machine = Some (memory str_ldr_machine) /\
  reg <$> run 2 str_ldr_machine = Some (R 0 5 0 0 0 0 0 0 0x3002 FL_Z).
Proof.
  split; [|split].
  - vm_compute; reflexivity.
  - apply run_memory. vm_compute; reflexivity.
  - vm_compute; reflexivity.
Qed.

(** * The bounds of the memory array *)


(** C6.  The array [memory] has 65535 cells, not 65536, so the word 0xFFFF
    is an address outside it: LDI R0, #0 with the pointer 0xFFFF in the
    cell that follows it is fetched and then reads outside the array. *)
Theorem memory_array_lacks_address_0xFFFF :
  Z.of_nat (length (memory (initial_state 0))) = 65535 /\
  is_u16 0xFFFF /\
  mem_read 0xFFFF (initial_state 0) = None /\
  fst <$> fetch ldi_machine = Some 0xA000 /\
  mem_read 0x3001 ldi_machine = Some 0xFFFF /\
  defined (step ldi_machine) = false.
Proof.
  split; [vm_compute; reflexivity|].
  split; [unfold is_u16; lia|].
  repeat split; vm_compute; reflexivity.
Qed.

(** * Flags after a store *)

(** C7.  ADD R0, R0, #0 and then ST R1, #0x43: the second instruction
    writes 0x8000, a negative word, into R1 and takes the flags from R0,
    the register that [dr] still names, so COND says Zero.  Whichever
    other register [dr] names when ST runs alone, COND does not say
    Negative either. *)
Theorem ST_takes_flags_from_another_register :
  reg <$> run 1 add_st_machine = Some (R 0 0 0 0 0 0 0 0 0x3001 FL_Z) /\
  dr <$> run 1 add_st_machine = Some 0 /\
  reg <$> run 2 add_st_machine = Some (R 0 0x8000 0 0 0 0 0 0 0x3002 FL_Z) /\
  sign_flag 0x8000 = FL_N /\ FL_N <> FL_Z /\
  Forall (fun d => (step (st_machine_with d) ≫= reg_get RG_001) = Some 0x8000 /\
                   (step (st_machine_with d) ≫= reg_get RG_COND) <> Some FL_N)
         [0; 2; 3; 4; 5; 6; 7; 8; 9].
Proof.
  split; [vm_compute; reflexivity|].
  split; [vm_compute; reflexivity|].
  split; [vm_compute; reflexivity|].
  split; [vm_compute; reflexivity|].
  split; [discriminate|].
  repeat constructor; try (vm_compute; reflexivity); vm_compute; discriminate.
Qed.

(** * Further properties *)

Lemma mask_range (k x : Z) : 0 <= k -> 0 <= Z.land x (Z.ones k) < 2 ^ k.
Proof. intros Hk. rewrite Z.land_ones by lia. apply Z.mod_pos_bound. lia. Qed.

Lemma reg_get_defined (s : State) (r : Z) :
  length (reg s) = Z.to_nat RG_COUNT -> 0 <= r < RG_COUNT ->
  is_Some (reg_get r s).
Proof.
  intros Hlen Hr. apply lookup_lt_is_Some_2. rewrite Hlen.
  unfold RG_COUNT in *. lia.
Qed.

Lemma sign_bit_threshold (x : Z) : is_u16 x -> Z.testbit x 15 = (2 ^ 15 <=? x).
Proof.
  unfold is_u16. intros Hx.
  rewrite Z.testbit_odd, Z.shiftr_div_pow2 by lia.
  destruct (Z.leb_spec (2 ^ 15) x) as [Hge|Hlt].
  - replace (x / 2 ^ 15) with 1; [reflexivity|].
    apply Z.div_unique with (x - 2 ^ 15); lia.
  - rewrite Z.div_small by lia. reflexivity.
Qed.

Lemma sign_flag_cases (x : Z) :
  is_u16 x ->
  (sign_flag x = FL_Z <-> x = 0) /\
  (sign_flag x = FL_N <-> 2 ^ 15 <= x) /\
  (sign_flag x = FL_P <-> 0 < x < 2 ^ 15).
Proof.
  intros Hx. unfold sign_flag. rewrite (sign_bit_threshold x Hx).
  unfold is_u16 in Hx.
  destruct (Z.eqb_spec x 0) as [->|Hnz]; [|destruct (Z.leb_spec (2 ^ 15) x)];
    unfold FL_Z, FL_N, FL_P;
    change (Z.shiftl 1 1) with 2; change (Z.shiftl 1 2) with 4;
    repeat split; intros; try lia; try discriminate.
Qed.

(** X1.  [update_flags r], for a register [r] that holds the word [x], is
    defined and changes COND alone; COND is Zero exactly when [x = 0],
    Negative exactly when [x >= 2^15] and Positive exactly when
    [0 < x < 2^15]. *)
Theorem update_flags_reads_the_sign (s : State) (r x : Z) :
  length (reg s) = Z.to_nat RG_COUNT -> reg_get r s = Some x -> is_u16 x ->
  exists c,
    update_flags r s =
      Some (set_reg_array (<[Z.to_nat RG_COND := c]> (reg s)) s) /\
    (c = FL_Z <-> x = 0) /\
    (c = FL_N <-> 2 ^ 15 <= x) /\
    (c = FL_P <-> 0 < x < 2 ^ 15).
Proof.
  intros Hlen Hr Hx. exists (sign_flag x).
  split; [now apply update_flags_sound|now apply sign_flag_cases].
Qed.

Lemma sign_extend_is_signed (N v : Z) :
  1 <= N <= 16 -> 0 <= v < 2 ^ N ->
  sign_extend v N = u16 (signed_field N v).
Proof.
  intros HN Hv. unfold signed_field.
  destruct (Z.testbit v (N - 1)) eqn:Hb.
  - now apply sign_extend_set.
  - rewrite sign_extend_clear by assumption.
    symmetry. apply u16_small. unfold is_u16. split; [lia|].
    apply Z.lt_le_trans with (2 ^ N); [lia|]. apply Z.pow_le_mono_r; lia.
Qed.

Lemma add_sign_extend (N v a : Z) :
  1 <= N <= 16 -> 0 <= v < 2 ^ N ->
  u16 (a + sign_extend v N) = u16 (a + signed_field N v).
Proof.
  intros HN Hv. rewrite sign_extend_is_signed by assumption.
  unfold u16. now rewrite Zplus_mod_idemp_r.
Qed.

(** X2.  An [N]-bit field read as a signed number lies in
    [-2^(N-1), 2^(N-1)), and adding its sign extension to a word is, modulo
    [2^16], adding that signed number. *)
Theorem sign_extend_adds_the_signed_value (N v a : Z) :
  1 <= N <= 16 -> 0 <= v < 2 ^ N ->
  - 2 ^ (N - 1) <= signed_field N v < 2 ^ (N - 1) /\
  u16 (a + sign_extend v N) = u16 (a + signed_field N v).
Proof.
  intros HN Hv. split.
  - unfold signed_field.
    assert (Hp : 2 ^ N = 2 * 2 ^ (N - 1)).
    { rewrite <- Z.pow_succ_r by lia. f_equal. lia. }
    destruct (Z.testbit v (N - 1)) eqn:Hb.
    + assert (2 ^ (N - 1) <= v); [|lia].
      destruct (Z.lt_ge_cases v (2 ^ (N - 1))) as [Hlt|]; [|assumption].
      destruct (Z.eqb_spec v 0) as [->|Hnz]; [now rewrite Z.bits_0 in Hb|].
      rewrite Z.bits_above_log2 in Hb; [discriminate|lia|].
      apply Z.log2_lt_pow2; lia.
    + assert (v < 2 ^ (N - 1)); [|lia].
      destruct (Z.lt_ge_cases v (2 ^ (N - 1))) as [|Hge]; [assumption|].
      rewrite Z.testbit_false in Hb by lia.
      replace (v / 2 ^ (N - 1)) with 1 in Hb; [discriminate|].
      apply Z.div_unique with (v - 2 ^ (N - 1)); lia.
  - now apply add_sign_extend.
Qed.

(** ** The cases that load a register *)

Lemma PCoffset9_is_signed (instr pc : Z) :
  u16 (sign_extend (Z.land instr 0x1FF) 9 + pc) =
  u16 (pc + signed_field 9 (Z.land instr 0x1FF)).
Proof.
  rewrite Z.add_comm. apply add_sign_extend; [lia|].
  change 0x1FF with (Z.ones 9). apply mask_range. lia.
Qed.

Lemma load_tail (s : State) (d v : Z) :
  length (reg s) = Z.to_nat RG_COUNT -> 0 <= d < 8 -> is_u16 v ->
  reg_set (dr (set_dr d s)) v (set_dr d s)
    ≫= (fun s' => update_flags (dr s') s') = Some (load_result s d v).
Proof.
  intros Hlen Hd Hv.
  now apply (write_dest_then_flags (set_dr d s)).
Qed.



(** X5.  LEA never reads the memory: the destination register receives the
    incremented PC plus the signed 9-bit offset, modulo [2^16], and COND
    is set from that address. *)
Theorem LEA_computes_the_address (instr pc : Z) (s : State) :
  length (reg s) = Z.to_nat RG_COUNT ->
  reg_get RG_PC s = Some pc ->
  case_OP_LEA instr s =
    Some (load_result s (Z.land (Z.shiftr instr 9) 0x7)
            (u16 (pc + signed_field 9 (Z.land instr 0x1FF)))).
Proof.
  intros Hlen Hpc. unfold case_OP_LEA. cbv zeta.
  change (reg_get RG_PC (set_dr (Z.land (Z.shiftr instr 9) 0x7) s))
    with (reg_get RG_PC s).
  rewrite Hpc. cbn [mbind option_bind].
  rewrite (Z.add_comm pc (sign_extend _ _)), PCoffset9_is_signed.
  apply load_tail; auto using field3_range, u16_range.
Qed.

Lemma lnot_word (a : Z) : is_u16 a -> u16 (Z.lnot a) = 0xFFFF - a.
Proof.
  unfold is_u16, u16, Z.lnot. intros Ha.
  replace (Z.pred (- a)) with ((65535 - a) + (-1) * 2 ^ 16) by lia.
  rewrite Z_mod_plus_full. apply Z.mod_small. lia.
Qed.

Lemma case_OP_NOT_computes (instr a : Z) (s : State) :
  length (reg s) = Z.to_nat RG_COUNT ->
  reg_get (Z.land (Z.shiftr instr 6) 0x7) s = Some a ->
  is_u16 a ->
  case_OP_NOT instr s =
    Some (load_result s (Z.land (Z.shiftr instr 9) 0x7) (0xFFFF - a)).
Proof.
  intros Hlen Ha Hw. unfold case_OP_NOT. cbv zeta.
  change (reg_get ?r (set_dr ?d s)) with (reg_get r s).
  rewrite Ha. cbn [mbind option_bind]. rewrite (lnot_word a Hw).
  apply load_tail; auto using field3_range.
  unfold is_u16 in *. lia.
Qed.

(** X6.  NOT writes [0xFFFF - a], the one's complement of the source word
    [a], and the flag it leaves is Negative exactly when [a < 2^15], Zero
    exactly when [a = 0xFFFF]. *)
Theorem NOT_complements (instr a : Z) (s : State) :
  length (reg s) = Z.to_nat RG_COUNT ->
  reg_get (Z.land (Z.shiftr instr 6) 0x7) s = Some a ->
  is_u16 a ->
  case_OP_NOT instr s =
    Some (load_result s (Z.land (Z.shiftr instr 9) 0x7) (0xFFFF - a)) /\
  (sign_flag (0xFFFF - a) = FL_Z <-> a = 0xFFFF) /\
  (sign_flag (0xFFFF - a) = FL_N <-> a < 2 ^ 15) /\
  (sign_flag (0xFFFF - a) = FL_P <-> 2 ^ 15 <= a < 0xFFFF).
Proof.
  intros Hlen Ha Hw. split; [now apply case_OP_NOT_computes|].
  assert (Hc : is_u16 (0xFFFF - a)) by (unfold is_u16 in *; lia).
  destruct (sign_flag_cases (0xFFFF - a) Hc) as (Hz & Hn & Hp).
  unfold is_u16 in *. rewrite Hz, Hn, Hp. repeat split; intros; lia.
Qed.

(** ** LDR *)





(** ** Control transfers *)

Lemma set_pc_defined (s : State) (v : Z) :
  length (reg s) = Z.to_nat RG_COUNT -> reg_set RG_PC v s = Some (set_pc v s).
Proof.
  intros Hlen. apply reg_set_defined; [exact Hlen|].
  unfold RG_PC, RG_COUNT. lia.
Qed.

(** X8.  BR moves the PC by the signed 9-bit offset exactly when its mask
    meets COND and changes nothing else; with an empty mask it never
    branches, and with the full mask it branches whenever COND holds one
    of the three flags. *)
Theorem BR_follows_the_mask (instr c pc : Z) (s : State) :
  length (reg s) = Z.to_nat RG_COUNT ->
  reg_get RG_COND s = Some c ->
  reg_get RG_PC s = Some pc ->
  let mask := Z.land (Z.shiftr instr 9) 0x7 in
  let target := u16 (pc + signed_field 9 (Z.land instr 0x1FF)) in
  case_OP_BR instr s =
    Some (if Z.land mask c =? 0 then s else set_pc target s) /\
  (mask = 0 -> case_OP_BR instr s = Some s) /\
  (mask = 7 -> c = FL_P \/ c = FL_Z \/ c = FL_N ->
   case_OP_BR instr s = Some (set_pc target s)).
Proof.
  intros Hlen Hc Hpc mask target.
  assert (Hgen : case_OP_BR instr s =
                 Some (if Z.land mask c =? 0 then s else set_pc target s)).
  { unfold case_OP_BR. cbv zeta. rewrite Hc. cbn [mbind option_bind].
    fold mask. destruct (Z.land mask c =? 0); [reflexivity|].
    rewrite Hpc. cbn [mbind option_bind].
    rewrite (Z.add_comm pc (sign_extend _ _)), PCoffset9_is_signed.
    now apply set_pc_defined. }
  split; [exact Hgen|]. split.
  - intros Hm. rewrite Hgen, Hm. reflexivity.
  - intros Hm Hflag. rewrite Hgen, Hm.
    destruct Hflag as [-> | [-> | ->]]; reflexivity.
Qed.

(** X9.  The JSR case is always defined and changes the PC alone: to the
    3-bit field in bits 6 to 8 when bit 11 is clear, forward by the low
    nine bits of the instruction when bit 11 is set. *)
Theorem JSR_only_moves_the_pc (instr pc : Z) (s : State) :
  length (reg s) = Z.to_nat RG_COUNT ->
  reg_get RG_PC s = Some pc ->
  case_OP_JSR instr s =
    Some (set_pc (if Z.land (Z.shiftr instr 11) 0x1 =? 0
                  then Z.land (Z.shiftr instr 6) 0x7
                  else u16 (pc + Z.land instr 0x1FF)) s).
Proof.
  intros Hlen Hpc. unfold case_OP_JSR. cbv zeta.
  destruct (Z.land (Z.shiftr instr 11) 0x1 =? 0).
  - now apply set_pc_defined.
  - rewrite Hpc. cbn [mbind option_bind].
    assert (Hm : 0 <= Z.land instr 0x1FF < 2 ^ 9)
      by (change 0x1FF with (Z.ones 9); apply mask_range; lia).
    assert (Hext : sign_extend (Z.land instr 0x1FF) 11 = Z.land instr 0x1FF).
    { unfold sign_extend. rewrite Z.shiftr_div_pow2 by lia.
      rewrite Z.div_small by lia. reflexivity. }
    rewrite Hext. now apply set_pc_defined.
Qed.

(** X10.  JMP copies the base register into the PC, leaves R0 to R7 alone,
    and recomputes COND from the register that [dr] names. *)
Theorem JMP_sets_the_pc (instr b x : Z) (s : State) :
  length (reg s) = Z.to_nat RG_COUNT ->
  reg_get (Z.land (Z.shiftr instr 6) 0x7) s = Some b ->
  0 <= dr s < 8 -> reg_get (dr s) s = Some x -> is_u16 x ->
  case_OP_JMP instr s =
    Some (set_reg_array
            (<[Z.to_nat RG_COND := sign_flag x]>
               (<[Z.to_nat RG_PC := b]> (reg s)))
            s).
Proof.
  intros Hlen Hb Hd Hx Hw. unfold case_OP_JMP. cbv zeta.
  rewrite Hb. cbn [mbind option_bind].
  rewrite set_pc_defined by exact Hlen. cbn [mbind option_bind].
  change (dr (set_pc b s)) with (dr s).
  rewrite (update_flags_sound (set_pc b s)) with (x := x);
    [reflexivity| |exact Hw|].
  - unfold set_pc. simpl. now rewrite length_insert.
  - unfold reg_get, set_pc. simpl. rewrite list_lookup_insert_ne; [exact Hx|].
    unfold RG_PC. lia.
Qed.

(** ** Immediate operands *)

Lemma imm5_range (instr : Z) : 0 <= Z.land instr 0x1F < 2 ^ 5.
Proof. change 0x1F with (Z.ones 5). apply mask_range. lia. Qed.

(** X11.  ADD in immediate mode adds a number between -16 and 15 to the
    source register, modulo [2^16], and sets COND from the result. *)
Theorem ADD_immediate_adds_the_signed_value (instr a : Z) (s : State) :
  length (reg s) = Z.to_nat RG_COUNT ->
  reg_get (Z.land (Z.shiftr instr 6) 0x7) s = Some a ->
  Z.land (Z.shiftr instr 5) 0x1 = 1 ->
  - 16 <= signed_field 5 (Z.land instr 0x1F) <= 15 /\
  case_OP_ADD instr s =
    Some (load_result s (Z.land (Z.shiftr instr 9) 0x7)
            (u16 (a + signed_field 5 (Z.land instr 0x1F)))).
Proof.
  intros Hlen Ha Hf. split.
  - pose proof (imm5_range instr) as Hr. unfold signed_field.
    destruct (Z.testbit (Z.land instr 0x1F) (5 - 1)) eqn:Hb; [|split; [lia|]].
    + assert (16 <= Z.land instr 0x1F); [|lia].
      destruct (Z.lt_ge_cases (Z.land instr 0x1F) 16) as [Hlt|]; [|assumption].
      rewrite Z.testbit_true in Hb by lia.
      rewrite Z.div_small in Hb by lia. discriminate.
    + destruct (Z.lt_ge_cases (Z.land instr 0x1F) 16) as [|Hge]; [lia|].
      rewrite Z.testbit_false in Hb by lia.
      replace (Z.land instr 0x1F / 2 ^ (5 - 1)) with 1 in Hb; [discriminate|].
      apply Z.div_unique with (Z.land instr 0x1F - 16); lia.
  - rewrite (case_OP_ADD_computes instr a s Hlen Ha). cbv zeta. rewrite Hf.
    change (1 =? 0) with false. cbv iota.
    rewrite add_sign_extend by (lia || apply imm5_range). reflexivity.
Qed.

(** X12.  AND in immediate mode masks the source word with the sign-extended
    immediate: the immediate 0 clears the destination, the immediate
    0x1F (minus one) copies the source. *)
Theorem AND_immediate_masks (instr a : Z) (s : State) :
  length (reg s) = Z.to_nat RG_COUNT ->
  reg_get (Z.land (Z.shiftr instr 6) 0x7) s = Some a ->
  is_u16 a ->
  Z.land (Z.shiftr instr 5) 0x1 = 1 ->
  let d := Z.land (Z.shiftr instr 9) 0x7 in
  case_OP_AND instr s =
    Some (load_result s d
            (Z.land a (u16 (signed_field 5 (Z.land instr 0x1F))))) /\
  (Z.land instr 0x1F = 0 -> case_OP_AND instr s = Some (load_result s d 0)) /\
  (Z.land instr 0x1F = 0x1F -> case_OP_AND instr s = Some (load_result s d a)).
Proof.
  intros Hlen Ha Hw Hf d.
  assert (Hgen : case_OP_AND instr s =
            Some (load_result s d
                    (Z.land a (u16 (signed_field 5 (Z.land instr 0x1F)))))).
  { rewrite (case_OP_AND_computes instr a s Hlen Ha). cbv zeta. rewrite Hf.
    change (1 =? 0) with false. cbv iota.
    rewrite sign_extend_is_signed by (lia || apply imm5_range).
    rewrite u16_small; [reflexivity|].
    unfold is_u16 in *. split; [apply Z.land_nonneg; lia|].
    destruct (Z.eqb_spec a 0) as [->|Hnz]; [rewrite Z.land_0_l; lia|].
    apply Z.log2_lt_cancel. rewrite Z.log2_pow2 by lia.
    eapply Z.le_lt_trans; [apply Z.log2_land; [lia|apply u16_range]|].
    apply Z.min_lt_iff. left. apply Z.log2_lt_pow2; lia. }
  split; [exact Hgen|]. split; intros Himm; rewrite Hgen, Himm.
  - change (u16 (signed_field 5 0)) with 0. now rewrite Z.land_0_r.
  - change (u16 (signed_field 5 0x1F)) with (Z.ones 16).
    rewrite Z.land_ones by lia. f_equal. f_equal. now apply u16_small.
Qed.

(** ** Two instructions in a row *)

Lemma load_result_length (s : State) (d v : Z) :
  length (reg (load_result s d v)) = length (reg s).
Proof. unfold load_result. simpl. now rewrite !length_insert. Qed.

Lemma load_result_dest (s : State) (d v : Z) :
  length (reg s) = Z.to_nat RG_COUNT -> 0 <= d < 8 ->
  reg_get d (load_result s d v) = Some v.
Proof.
  intros Hlen Hd. unfold reg_get, load_result. simpl.
  rewrite list_lookup_insert_ne by (unfold RG_COND; lia).
  apply list_lookup_insert_eq. rewrite Hlen. unfold RG_COUNT. lia.
Qed.

Lemma load_result_twice (s : State) (d v w : Z) :
  0 <= d < 8 ->
  load_result (load_result s d v) d w = load_result s d w.
Proof.
  intros Hd. unfold load_result. simpl. f_equal.
  rewrite (list_insert_insert_ne _ (Z.to_nat d) (Z.to_nat RG_COND))
    by (unfold RG_COND; lia).
  now rewrite !list_insert_insert_eq.
Qed.

(** X13.  NOT Rd, Rs followed by NOT Rd, Rd leaves in Rd the word of Rs, with
    COND set from it: the state is the one a move would give. *)
Theorem NOT_twice_restores (i1 i2 a : Z) (s : State) :
  length (reg s) = Z.to_nat RG_COUNT ->
  reg_get (Z.land (Z.shiftr i1 6) 0x7) s = Some a -> is_u16 a ->
  Z.land (Z.shiftr i2 9) 0x7 = Z.land (Z.shiftr i1 9) 0x7 ->
  Z.land (Z.shiftr i2 6) 0x7 = Z.land (Z.shiftr i1 9) 0x7 ->
  case_OP_NOT i1 s ≫= case_OP_NOT i2 =
    Some (load_result s (Z.land (Z.shiftr i1 9) 0x7) a).
Proof.
  intros Hlen Ha Hw Hd Hs.
  pose proof (field3_range (Z.shiftr i1 9)) as Hr.
  rewrite (case_OP_NOT_computes i1 a s Hlen Ha Hw). cbn [mbind option_bind].
  rewrite (case_OP_NOT_computes i2 (0xFFFF - a)).
  - rewrite Hd, load_result_twice by exact Hr. do 2 f_equal. lia.
  - now rewrite load_result_length.
  - rewrite Hs. now apply load_result_dest.
  - unfold is_u16 in *. lia.
Qed.

(** X14.  NOT Rd, Rs followed by ADD Rd, Rd, #1 leaves in Rd the two's
    complement [-a mod 2^16] of the word [a] of Rs. *)
Theorem NOT_then_ADD_one_negates (i1 i2 a : Z) (s : State) :
  length (reg s) = Z.to_nat RG_COUNT ->
  reg_get (Z.land (Z.shiftr i1 6) 0x7) s = Some a -> is_u16 a ->
  Z.land (Z.shiftr i2 9) 0x7 = Z.land (Z.shiftr i1 9) 0x7 ->
  Z.land (Z.shiftr i2 6) 0x7 = Z.land (Z.shiftr i1 9) 0x7 ->
  Z.land (Z.shiftr i2 5) 0x1 = 1 -> Z.land i2 0x1F = 1 ->
  case_OP_NOT i1 s ≫= case_OP_ADD i2 =
    Some (load_result s (Z.land (Z.shiftr i1 9) 0x7) (u16 (- a))).
Proof.
  intros Hlen Ha Hw Hd Hs Hf Himm.
  pose proof (field3_range (Z.shiftr i1 9)) as Hr.
  rewrite (case_OP_NOT_computes i1 a s Hlen Ha Hw). cbn [mbind option_bind].
  rewrite (case_OP_ADD_computes i2 (0xFFFF - a)).
  - cbv zeta. rewrite Hf, Himm, Hd. change (1 =? 0) with false. cbv iota.
    change (sign_extend 1 5) with 1.
    replace (u16 (0xFFFF - a + 1)) with (u16 (- a)).
    + f_equal. apply (load_result_twice s _ (0xFFFF - a) (u16 (- a)) Hr).
    + unfold u16. replace (0xFFFF - a + 1) with (- a + 1 * 2 ^ 16) by lia.
      now rewrite Z_mod_plus_full.
  - now rewrite load_result_length.
  - rewrite Hs. now apply load_result_dest.
Qed.

(** ** COND always holds one flag *)

Lemma reg_set_reads_back (r v : Z) (s s' : State) :
  reg_set r v s = Some s' -> reg_get r s' = Some v.
Proof.
  unfold reg_set, reg_get.
  destruct (reg s !! Z.to_nat r) eqn:E; [|discriminate].
  intros [= <-]. simpl. apply list_lookup_insert_eq.
  now apply lookup_lt_Some in E.
Qed.

Lemma reg_set_elsewhere (r r' v : Z) (s s' : State) :
  0 <= r -> 0 <= r' -> r <> r' ->
  reg_set r v s = Some s' -> reg_get r' s' = reg_get r' s.
Proof.
  unfold reg_set, reg_get. intros Hr Hr' Hne.
  destruct (reg s !! Z.to_nat r); [|discriminate].
  intros [= <-]. simpl. apply list_lookup_insert_ne. lia.
Qed.

Lemma update_flags_one_flag (r : Z) (s s' : State) :
  update_flags r s = Some s' -> one_flag s'.
Proof.
  unfold update_flags, one_flag. intros H. unbind;
    apply reg_set_reads_back in H; auto.
Qed.

Lemma one_flag_set_pc (v : Z) (s s' : State) :
  one_flag s -> reg_set RG_PC v s = Some s' -> one_flag s'.
Proof.
  unfold one_flag. intros Hs H.
  rewrite (reg_set_elsewhere RG_PC RG_COND v s s'); auto;
    unfold RG_PC, RG_COND; lia.
Qed.

Lemma one_flag_execute (instr : Z) (s s' : State) :
  one_flag s -> execute instr s = Some s' -> one_flag s'.
Proof.
  intros Hs H. unfold execute in H.
  repeat match type of H with (if ?b then _ else _) = _ => destruct b end;
  cbv beta zeta delta
    [case_OP_BR case_OP_ADD case_OP_LD case_OP_ST case_OP_JSR case_OP_AND
     case_OP_LDR case_OP_STR case_OP_NOT case_OP_LDI case_OP_STI case_OP_JMP
     case_OP_LEA case_OP_TRAP case_default] in H;
  unbind;
  first [ assumption
        | eapply update_flags_one_flag; eassumption
        | eapply one_flag_set_pc; eassumption ].
Qed.

Lemma one_flag_step (s s' : State) :
  one_flag s -> step s = Some s' -> one_flag s'.
Proof.
  intros Hs H. unfold step in H. apply bind_Some in H as ([instr s1] & Hf & He).
  apply (one_flag_execute instr s1); [|exact He].
  unfold fetch in Hf. unbind. simplify_eq.
  eapply one_flag_set_pc; eassumption.
Qed.

(** X16.  COND holds exactly one of the flags Positive, Zero, Negative in
    the initial state and after any number of iterations from a state
    where it does. *)
Theorem COND_always_holds_one_flag :
  (forall d, one_flag (initial_state d)) /\
  (forall fuel s0 s, one_flag s0 -> run fuel s0 = Some s -> one_flag s).
Proof.
  split; [intros d; right; left; reflexivity|].
  induction fuel as [|fuel IH]; intros s0 s Hs H; simpl in H.
  - now injection H as <-.
  - destruct (running s0 =? FALSE); [now injection H as <-|].
    apply bind_Some in H as (s1 & H1 & H).
    eauto using one_flag_step.
Qed.

(** ** Which instructions can leave the arrays *)

Lemma update_flags_defined (r : Z) (s : State) :
  length (reg s) = Z.to_nat RG_COUNT -> 0 <= r < RG_COUNT ->
  is_Some (update_flags r s).
Proof.
  intros Hlen Hr. unfold update_flags.
  destruct (reg_get_defined s r Hlen Hr) as [x ->]. cbn [mbind option_bind].
  destruct (x =? 0); [|destruct (negb _)];
    rewrite reg_set_defined by (exact Hlen || (unfold RG_COND, RG_COUNT; lia));
    eauto.
Qed.

Lemma write_then_flags_defined (s : State) (d v : Z) :
  length (reg s) = Z.to_nat RG_COUNT -> 0 <= d < 8 ->
  is_Some (reg_set (dr (set_dr d s)) v (set_dr d s)
             ≫= (fun s' => update_flags (dr s') s')).
Proof.
  intros Hlen Hd.
  rewrite (reg_set_defined (set_dr d s))
    by (exact Hlen || (cbn [dr set_dr]; unfold RG_COUNT; lia)).
  cbn [mbind option_bind dr set_dr set_reg_array].
  apply update_flags_defined; [|unfold RG_COUNT; lia].
  simpl. now rewrite length_insert.
Qed.

(** X19.  With ten registers, every instruction whose opcode is not LD, ST,
    LDR, STR, LDI, STI or JMP executes without leaving the arrays. *)
Theorem register_instructions_stay_in_the_arrays (instr : Z) (s : State) :
  length (reg s) = Z.to_nat RG_COUNT ->
  ~ In (Z.shiftr instr 12)
       [OP_LD; OP_ST; OP_LDR; OP_STR; OP_LDI; OP_STI; OP_JMP] ->
  is_Some (execute instr s).
Proof.
  intros Hlen Hop.
  pose proof (field3_range (Z.shiftr instr 9)) as Hd.
  pose proof (field3_range (Z.shiftr instr 6)) as Hs.
  assert (Hget : forall r, 0 <= r < 8 -> is_Some (reg_get r s)).
  { intros r Hr. apply reg_get_defined; [exact Hlen|unfold RG_COUNT; lia]. }
  destruct (reg_get_defined s RG_PC Hlen) as [pc Hpc];
    [unfold RG_PC, RG_COUNT; lia|].
  destruct (reg_get_defined s RG_COND Hlen) as [c Hc];
    [unfold RG_COND, RG_COUNT; lia|].
  destruct (Hget _ Hs) as [a Ha].
  unfold execute.
  repeat match goal with
  | |- is_Some (if ?op =? ?k then _ else _) =>
      destruct (Z.eqb_spec op k) as [E|_];
      [try (exfalso; apply Hop; rewrite E; simpl; tauto)|]
  end;
  cbv beta zeta delta
    [case_OP_BR case_OP_ADD case_OP_JSR case_OP_AND case_OP_NOT case_OP_LEA
     case_OP_TRAP case_default];
  change (reg_get ?r (set_dr ?d s)) with (reg_get r s);
  rewrite ?Hc, ?Hpc, ?Ha; cbn [mbind option_bind];
  repeat match goal with
  | |- is_Some (if ?b then _ else _) => destruct b
  | |- is_Some ((if ?b then _ else _) ≫= _) => destruct b
  end;
  rewrite ?Hc, ?Hpc, ?Ha; cbn [mbind option_bind];
  rewrite ?set_pc_defined by exact Hlen;
  eauto using write_then_flags_defined.
Qed.

(** ** The fetch *)


(** ** Start-up *)

(** X21.  [main] always exits before the loop: with code 2 and the usage
    line when no image is named, with code 1 and the load-failure line
    for the first image otherwise; the result does not depend on the
    machine. *)
Theorem main_never_enters_the_loop (fuel : nat) (d : Z) (argv : list string) :
  ((length argv < 2)%nat /\
   main fuel d argv = Exited ["usage: [image-file1] ..." +:+ newline] 2 \/
   exists image,
     argv !! 1%nat = Some image /\
     main fuel d argv =
       Exited ["failed to load image: " +:+ image +:+ newline] 1) /\
  main fuel d argv = main 0 0 argv.
Proof.
  unfold main.
  destruct (Z.ltb_spec (Z.of_nat (length argv)) 2) as [Hlt|Hge].
  - split; [left; split; [lia|reflexivity]|reflexivity].
  - destruct argv as [|prog [|image rest]]; simpl in Hge; try lia.
    split; [right; exists image; split; reflexivity|reflexivity].
Qed.

(** ** Stretches of inert words *)





(** ** The concrete machines are well formed *)


(** ** Witnesses *)

Lemma update_flags_reads_the_sign_witness :
  reg_get RG_001 (demo_machine 0x3001) = Some 0x8000 /\ is_u16 0x8000 /\
  exists c,
    update_flags RG_001 (demo_machine 0x3001) =
      Some (set_reg_array
              (<[Z.to_nat RG_COND := c]> (reg (demo_machine 0x3001)))
              (demo_machine 0x3001)) /\
    (c = FL_Z <-> 0x8000 = 0) /\
    (c = FL_N <-> 2 ^ 15 <= 0x8000) /\
    (c = FL_P <-> 0 < 0x8000 < 2 ^ 15).
Proof.
  assert (Hlen : length (reg (demo_machine 0x3001)) = Z.to_nat RG_COUNT)
    by reflexivity.
  assert (Hr : reg_get RG_001 (demo_machine 0x3001) = Some 0x8000)
    by reflexivity.
  assert (Hx : is_u16 0x8000) by (unfold is_u16; lia).
  split; [exact Hr|]. split; [exact Hx|].
  exact (update_flags_reads_the_sign (demo_machine 0x3001) RG_001 0x8000
           Hlen Hr Hx).
Defined.

Lemma sign_extend_adds_the_signed_value_witness :
  signed_field 9 0x1FE = -2 /\
  u16 (0x3001 + sign_extend 0x1FE 9) = 0x2FFF.
Proof.
  assert (HN : 1 <= 9 <= 16) by lia.
  assert (Hv : 0 <= 0x1FE < 2 ^ 9) by lia.
  destruct (sign_extend_adds_the_signed_value 9 0x1FE 0x3001 HN Hv) as (_ & H).
  split; [reflexivity|]. rewrite H. reflexivity.
Defined.


Ltac demo_facts pc :=
  assert (Hlen : length (reg (demo_machine pc)) = Z.to_nat RG_COUNT)
    by reflexivity;
  assert (Hpc : reg_get RG_PC (demo_machine pc) = Some pc) by reflexivity.


Lemma LEA_computes_the_address_witness :
  reg <$> case_OP_LEA 0xE9FF (demo_machine 0x3001) =
    Some (R 5 0x8000 0x3011 0 0x3000 0 0 0x4000 0x3001 FL_P).
Proof.
  demo_facts 0x3001.
  rewrite (LEA_computes_the_address 0xE9FF 0x3001 (demo_machine 0x3001)
             Hlen Hpc).
  vm_compute. reflexivity.
Defined.

Lemma NOT_complements_witness :
  reg <$> case_OP_NOT 0x983F (demo_machine 0x3001) =
    Some (R 5 0x8000 0x3011 0 0xFFFA 0 0 0x4000 0x3001 FL_N).
Proof.
  demo_facts 0x3001.
  assert (Ha : reg_get (Z.land (Z.shiftr 0x983F 6) 0x7) (demo_machine 0x3001)
               = Some 5) by reflexivity.
  assert (Hw : is_u16 5) by (unfold is_u16; lia).
  rewrite (proj1 (NOT_complements 0x983F 5 (demo_machine 0x3001) Hlen Ha Hw)).
  vm_compute. reflexivity.
Defined.


Lemma BR_follows_the_mask_witness :
  reg <$> case_OP_BR 0x0FFE (demo_machine 0x3001) =
    Some (R 5 0x8000 0x3011 0 0 0 0 0x4000 0x2FFF FL_P) /\
  case_OP_BR 0x0000 (demo_machine 0x3001) = Some (demo_machine 0x3001).
Proof.
  demo_facts 0x3001.
  assert (Hc : reg_get RG_COND (demo_machine 0x3001) = Some FL_P)
    by reflexivity.
  pose proof (BR_follows_the_mask 0x0FFE FL_P 0x3001 (demo_machine 0x3001)
                Hlen Hc Hpc) as H7.
  pose proof (BR_follows_the_mask 0x0000 FL_P 0x3001 (demo_machine 0x3001)
                Hlen Hc Hpc) as H0.
  cbv zeta in H7, H0.
  destruct H7 as (_ & _ & H7). destruct H0 as (_ & H0 & _).
  split.
  - rewrite (H7 eq_refl (or_introl eq_refl)). vm_compute. reflexivity.
  - exact (H0 eq_refl).
Defined.

Lemma JSR_only_moves_the_pc_witness :
  reg <$> case_OP_JSR 0x4FFE (demo_machine 0x3001) =
    Some (R 5 0x8000 0x3011 0 0 0 0 0x4000 0x31FF FL_P) /\
  reg <$> case_OP_JSR 0x4080 (demo_machine 0x3001) =
    Some (R 5 0x8000 0x3011 0 0 0 0 0x4000 2 FL_P).
Proof.
  demo_facts 0x3001.
  split.
  - rewrite (JSR_only_moves_the_pc 0x4FFE 0x3001 (demo_machine 0x3001)
               Hlen Hpc).
    vm_compute. reflexivity.
  - rewrite (JSR_only_moves_the_pc 0x4080 0x3001 (demo_machine 0x3001)
               Hlen Hpc).
    vm_compute. reflexivity.
Defined.

Lemma JMP_sets_the_pc_witness :
  reg <$> case_OP_JMP 0xC1C0 (demo_machine 0x3001) =
    Some (R 5 0x8000 0x3011 0 0 0 0 0x4000 0x4000 FL_P).
Proof.
  demo_facts 0x3001.
  assert (Hb : reg_get (Z.land (Z.shiftr 0xC1C0 6) 0x7) (demo_machine 0x3001)
               = Some 0x4000) by reflexivity.
  assert (Hd : 0 <= dr (demo_machine 0x3001) < 8) by (simpl; lia).
  assert (Hx : reg_get (dr (demo_machine 0x3001)) (demo_machine 0x3001)
               = Some 5) by reflexivity.
  assert (Hw : is_u16 5) by (unfold is_u16; lia).
  rewrite (JMP_sets_the_pc 0xC1C0 0x4000 5 (demo_machine 0x3001)
             Hlen Hb Hd Hx Hw).
  vm_compute. reflexivity.
Defined.

Lemma ADD_immediate_adds_the_signed_value_witness :
  signed_field 5 (Z.land 0x183D 0x1F) = -3 /\
  reg <$> case_OP_ADD 0x183D (demo_machine 0x3001) =
    Some (R 5 0x8000 0x3011 0 2 0 0 0x4000 0x3001 FL_P).
Proof.
  demo_facts 0x3001.
  assert (Ha : reg_get (Z.land (Z.shiftr 0x183D 6) 0x7) (demo_machine 0x3001)
               = Some 5) by reflexivity.
  assert (Hf : Z.land (Z.shiftr 0x183D 5) 0x1 = 1) by reflexivity.
  split; [reflexivity|].
  rewrite (proj2 (ADD_immediate_adds_the_signed_value 0x183D 5
                    (demo_machine 0x3001) Hlen Ha Hf)).
  vm_compute. reflexivity.
Defined.

Lemma AND_immediate_masks_witness :
  reg <$> case_OP_AND 0x587F (demo_machine 0x3001) =
    Some (R 5 0x8000 0x3011 0 0x8000 0 0 0x4000 0x3001 FL_N) /\
  reg <$> case_OP_AND 0x5860 (demo_machine 0x3001) =
    Some (R 5 0x8000 0x3011 0 0 0 0 0x4000 0x3001 FL_Z).
Proof.
  demo_facts 0x3001.
  assert (Ha : forall i, Z.land (Z.shiftr i 6) 0x7 = 1 ->
                 reg_get (Z.land (Z.shiftr i 6) 0x7) (demo_machine 0x3001)
                 = Some 0x8000) by (intros i ->; reflexivity).
  assert (Hw : is_u16 0x8000) by (unfold is_u16; lia).
  pose proof (AND_immediate_masks 0x587F 0x8000 (demo_machine 0x3001)
                Hlen (Ha 0x587F eq_refl) Hw eq_refl) as H1.
  pose proof (AND_immediate_masks 0x5860 0x8000 (demo_machine 0x3001)
                Hlen (Ha 0x5860 eq_refl) Hw eq_refl) as H2.
  cbv zeta in H1, H2.
  destruct H1 as (_ & _ & H1). destruct H2 as (_ & H2 & _).
  split.
  - rewrite (H1 eq_refl). vm_compute. reflexivity.
  - rewrite (H2 eq_refl). vm_compute. reflexivity.
Defined.

Lemma NOT_twice_restores_witness :
  reg <$> (case_OP_NOT 0x983F (demo_machine 0x3001) ≫= case_OP_NOT 0x993F) =
    Some (R 5 0x8000 0x3011 0 5 0 0 0x4000 0x3001 FL_P).
Proof.
  demo_facts 0x3001.
  assert (Ha : reg_get (Z.land (Z.shiftr 0x983F 6) 0x7) (demo_machine 0x3001)
               = Some 5) by reflexivity.
  assert (Hw : is_u16 5) by (unfold is_u16; lia).
  rewrite (NOT_twice_restores 0x983F 0x993F 5 (demo_machine 0x3001)
             Hlen Ha Hw eq_refl eq_refl).
  vm_compute. reflexivity.
Defined.

Lemma NOT_then_ADD_one_negates_witness :
  reg <$> (case_OP_NOT 0x983F (demo_machine 0x3001) ≫= case_OP_ADD 0x1921) =
    Some (R 5 0x8000 0x3011 0 0xFFFB 0 0 0x4000 0x3001 FL_N).
Proof.
  demo_facts 0x3001.
  assert (Ha : reg_get (Z.land (Z.shiftr 0x983F 6) 0x7) (demo_machine 0x3001)
               = Some 5) by reflexivity.
  assert (Hw : is_u16 5) by (unfold is_u16; lia).
  rewrite (NOT_then_ADD_one_negates 0x983F 0x1921 5 (demo_machine 0x3001)
             Hlen Ha Hw eq_refl eq_refl eq_refl eq_refl).
  vm_compute. reflexivity.
Defined.

Lemma COND_always_holds_one_flag_witness :
  one_flag flag_machine /\
  (run 1 flag_machine ≫= reg_get RG_COND) = Some FL_N /\
  (run 2 flag_machine ≫= reg_get RG_COND) = Some FL_Z /\
  (run 3 flag_machine ≫= reg_get RG_COND) = Some FL_P /\
  reg <$> run 3 flag_machine =
    Some (R 0xFFFF 0 0x1234 0 0 0 0 0 0x3003 FL_P) /\
  match run 3 flag_machine with
  | Some s => one_flag s
  | None => False
  end.
Proof.
  assert (Hs : one_flag flag_machine) by (right; left; reflexivity).
  assert (Hd : defined (run 3 flag_machine) = true)
    by (vm_compute; reflexivity).
  split; [exact Hs|].
  split; [vm_compute; reflexivity|].
  split; [vm_compute; reflexivity|].
  split; [vm_compute; reflexivity|].
  split; [vm_compute; reflexivity|].
  destruct (run 3 flag_machine) as [s|] eqn:E; [|discriminate Hd].
  exact (proj2 COND_always_holds_one_flag 3%nat flag_machine s Hs E).
Defined.

Lemma register_instructions_stay_in_the_arrays_witness :
  Z.shiftr 0x183D 12 = OP_ADD /\
  is_Some (execute 0x183D (demo_machine 0x3001)).
Proof.
  demo_facts 0x3001.
  assert (Hop : ~ In (Z.shiftr 0x183D 12)
                     [OP_LD; OP_ST; OP_LDR; OP_STR; OP_LDI; OP_STI; OP_JMP])
    by (vm_compute; intuition discriminate).
  split; [reflexivity|].
  exact (register_instructions_stay_in_the_arrays 0x183D (demo_machine 0x3001)
           Hlen Hop).
Defined.



(** ** The earlier revision *)


